(** * QIResult: the probability and calibration accessors

    A shallow embedding of [src/quantuminspire/qiskit/qi_result.py].

    [QIResult] extends the SDK's [Result] with two read accessors,
    [get_probabilities] and [get_calibration].  Both walk a list of
    experiment keys, resolve each key through the base class, read one
    entry of the experiment's data mapping and collect the entries in a
    list that is unwrapped when it has exactly one element.

    The base class ([_get_experiment], [data]), the header's [to_dict]
    and [postprocess.format_counts] belong to the SDK, not to this
    file: they are the variables of [Section Framework].  There
    [to_dict] fails as the SDK does, with [QiskitError]; what the
    [except] clause does with other classes is stated over a header
    conversion that may raise any exception.  The Python
    methods are embedded in a state-and-exception monad over the
    [Result] object, so that what a call raises and what it leaves
    behind in [self] are both visible. *)

From Stdlib Require Import Ascii String.
From stdpp Require Import gmap strings list fin_maps pretty.

Set Warnings "-register-all".
Set Default Proof Using "Type".

(** ** Python values *)

(** The values stored in a data mapping.  A float is kept as the dyadic
    rational [mantissa * 2 ^ exponent] it denotes; the accessors never
    compute on it. *)
Inductive Value : Type :=
  | VNone
  | VBool (b : bool)
  | VInt (z : Z)
  | VFloat (mantissa exponent : Z)
  | VStr (s : string)
  | VList (l : list Value)
  | VDict (d : gmap string Value).

(** ** Exceptions *)

(** The exception classes that occur in the file: the two named by the
    [except] clause, the [KeyError] and [IndexError] of a failed
    subscript and the backend error the accessors raise themselves. *)
Inductive exn_class : Type :=
  | AttributeErrorC
  | KeyErrorC
  | IndexErrorC
  | QiskitErrorC
  | QiskitBackendErrorC.

Inductive exn : Type :=
  | AttributeError (msg : string)
  | KeyError (key : string)
  | IndexError (msg : string)
  | QiskitError (msg : string)
  | QiskitBackendError (msg : string).

(** [isinstance e c]; [QiskitBackendError] derives from [QiskitError]. *)
Definition isinstance (e : exn) (c : exn_class) : bool :=
  match e, c with
  | AttributeError _, AttributeErrorC => true
  | KeyError _, KeyErrorC => true
  | IndexError _, IndexErrorC => true
  | QiskitError _, QiskitErrorC => true
  | QiskitBackendError _, QiskitBackendErrorC => true
  | QiskitBackendError _, QiskitErrorC => true
  | _, _ => false
  end.

(** An [except (C1, C2, ...)] clause catches [e] when [e] is an instance
    of one of the listed classes. *)
Definition caught_by (classes : list exn_class) (e : exn) : bool :=
  existsb (isinstance e) classes.

(** ** The result store *)

(** An experiment header: a namespace of attributes. *)
Record Header : Type := mkHeader {
  header_attrs : gmap string Value
}.

(** One record per executed experiment.  The [header] attribute is
    optional: [None] stands for a record without it. *)
Record ExperimentResult : Type := mkExperimentResult {
  exp_shots : Z;
  exp_success : bool;
  exp_data : gmap string Value;
  exp_header : option Header
}.

(** The state of a [Result] object, as set up by [__init__]. *)
Record Result : Type := mkResult {
  backend_name : string;
  backend_version : string;
  qobj_id : string;
  job_id : string;
  success : bool;
  results : list ExperimentResult
}.

(** A circuit object handed in as experiment: its [name] and its
    rendering by [str]. *)
Record Circuit : Type := mkCircuit {
  circ_name : string;
  circ_str : string
}.

(** The [experiment] argument when it is not [None]: an index, a name
    or a circuit object. *)
Inductive Key : Type :=
  | KInt (i : Z)
  | KStr (name : string)
  | KCircuit (c : Circuit).

(** [str(key)], as [format] renders it in the error messages. *)
Definition str_of_key (key : Key) : string :=
  match key with
  | KInt i => pretty i
  | KStr name => name
  | KCircuit c => circ_str c
  end.

(** The double quote character of the messages. *)
Definition dquote : string := String "034"%char EmptyString.

(** ** The monad of a method call on [self] *)

(** A method body maps the state of [self] to what it returns or raises
    and to the state it leaves. *)
Definition M (A : Type) : Type := Result -> (exn + A) * Result.

Definition ret {A : Type} (a : A) : M A :=
  fun self => (inr a, self).

Definition bind {A B : Type} (m : M A) (k : A -> M B) : M B :=
  fun self =>
    match m self with
    | (inl e, self') => (inl e, self')
    | (inr a, self') => k a self'
    end.

Definition raise {A : Type} (e : exn) : M A :=
  fun self => (inl e, self).

(** [try: body except classes: handler] *)
Definition try_except {A : Type} (body : M A) (classes : list exn_class)
    (handler : M A) : M A :=
  fun self =>
    match body self with
    | (inl e, self') =>
        if caught_by classes e then handler self' else (inl e, self')
    | (inr a, self') => (inr a, self')
    end.

(** Reading an attribute of [self]. *)
Definition attr {A : Type} (f : Result -> A) : M A :=
  fun self => (inr (f self), self).

(** Calling a reading method of the base class. *)
Definition call {A : Type} (f : Result -> exn + A) : M A :=
  fun self => (f self, self).

Notation "x <- c1 ;; c2" := (bind c1 (fun x => c2))
  (at level 100, c1 at next level, right associativity).

(** [d[k]] on a mapping. *)
Definition getitem {A : Type} (d : gmap string A) (k : string) : M A :=
  match d !! k with
  | Some v => ret v
  | None => raise (KeyError k)
  end.

(** [range(n)] as experiment keys. *)
Definition range (n : nat) : list Key :=
  (fun i => KInt (Z.of_nat i)) <$> seq 0 n.

(** A [for key in keys] loop whose body extends the list it is given. *)
Fixpoint for_each (keys : list Key) (body : Key -> list Value -> M (list Value))
    (dict_list : list Value) : M (list Value) :=
  match keys with
  | [] => ret dict_list
  | key :: keys' =>
      dict_list' <- body key dict_list ;;
      for_each keys' body dict_list'
  end.

(** ** A reference instance of the SDK

    A small stand-in for the base [Result] class, the header and the
    formatting helper, after their documented behaviour.  The accessors
    below do not depend on it; it serves to run them on concrete
    stores. *)
Module Reference.

(** [l[i]] with Python's negative indices. *)
Definition py_index {A : Type} (l : list A) (i : Z) : option A :=
  if bool_decide (0 ≤ i)%Z then l !! Z.to_nat i
  else if bool_decide (- Z.of_nat (length l) ≤ i)%Z
       then l !! Z.to_nat (Z.of_nat (length l) + i)
       else None.

(** [getattr(getattr(exp, "header", None), "name", "")] *)
Definition header_name (exp : ExperimentResult) : Value :=
  match exp_header exp with
  | Some h => default (VStr "") (header_attrs h !! "name")
  | None => VStr ""
  end.

Definition has_name (name : string) (exp : ExperimentResult) : bool :=
  match header_name exp with
  | VStr s => bool_decide (s = name)
  | _ => false
  end.

Definition by_name (self : Result) (name : string) : exn + ExperimentResult :=
  match filter (fun exp => has_name name exp = true) (results self) with
  | exp :: _ => inr exp
  | [] => inl (QiskitError
            ("Data for experiment " +:+ dquote +:+ name +:+ dquote
             +:+ " could not be found."))
  end.

(** The experiment resolver: an integer selects by position, a name or
    a circuit selects the first record whose header carries the name. *)
Definition resolver (self : Result) (key : Key) : exn + ExperimentResult :=
  match key with
  | KInt i =>
      match py_index (results self) i with
      | Some exp => inr exp
      | None => inl (QiskitError
                  ("Result for experiment " +:+ dquote +:+ pretty i +:+ dquote
                   +:+ " could not be found."))
      end
  | KStr name => by_name self name
  | KCircuit c => by_name self (circ_name c)
  end.

(** [data(key)]: the data mapping of the resolved experiment. *)
Definition data_accessor (self : Result) (key : Key) : exn + gmap string Value :=
  match resolver self key with
  | inl e => inl e
  | inr exp => inr (exp_data exp)
  end.

(** [header.to_dict()]: the attributes as a plain mapping. *)
Definition to_dict (h : Header) : string + gmap string Value :=
  inr (header_attrs h).

(** A [to_dict] that rejects a header without a name. *)
Definition strict_to_dict (h : Header) : string + gmap string Value :=
  match header_attrs h !! "name" with
  | Some _ => inr (header_attrs h)
  | None => inl "header has no name"
  end.

Fixpoint zeros (n : nat) : string :=
  match n with
  | O => ""
  | S n' => "0" +:+ zeros n'
  end.

Definition pad_zeros (bitstring : string) (memory_slots : nat) : string :=
  zeros (memory_slots - String.length bitstring) +:+ bitstring.

(** The formatting helper: with a header that gives [memory_slots],
    the state labels are padded to that width. *)
Definition format_counts (counts : Value) (header : option (gmap string Value)) : Value :=
  match counts, header with
  | VDict d, Some h =>
      match h !! "memory_slots" with
      | Some (VInt n) => VDict (kmap (fun k => pad_zeros k (Z.to_nat n)) d)
      | _ => counts
      end
  | _, _ => counts
  end.

(** *** Concrete stores *)

Definition half : Value := VFloat 1 (-1).

(** [{"00": 0.5, "11": 0.5}] *)
Definition bell : Value :=
  VDict (<["00" := half]> (<["11" := half]> ∅)).

(** [{"0": 0.5, "1": 0.5}] *)
Definition coin : Value :=
  VDict (<["0" := half]> (<["1" := half]> ∅)).

(** [{"00": 0.5, "01": 0.5}]: [coin] on two memory slots. *)
Definition coin2 : Value :=
  VDict (<["00" := half]> (<["01" := half]> ∅)).

Definition fridge : Value :=
  VDict (<["fridge_temperature" := VFloat 5 (-8)]> ∅).

Definition header_of_name (name : string) (memory_slots : Z) : Header :=
  mkHeader (<["name" := VStr name]> (<["memory_slots" := VInt memory_slots]> ∅)).

Definition anonymous_header : Header :=
  mkHeader (<["memory_slots" := VInt 2]> ∅).

(** An experiment with probabilities and calibration and no header. *)
Definition exp_bell : ExperimentResult :=
  mkExperimentResult 1024 true
    (<["probabilities" := bell]> (<["calibration" := fridge]> ∅)) None.

(** An experiment named [coin] on two memory slots. *)
Definition exp_coin : ExperimentResult :=
  mkExperimentResult 1024 true
    (<["probabilities" := coin]> (<["calibration" := VNone]> ∅))
    (Some (header_of_name "coin" 2)).

(** An experiment whose header has no name. *)
Definition exp_anonymous : ExperimentResult :=
  mkExperimentResult 1024 true
    (<["probabilities" := coin]> ∅) (Some anonymous_header).

(** An experiment with counts only. *)
Definition exp_counts : ExperimentResult :=
  mkExperimentResult 1024 true
    (<["counts" := VDict (<["0x0" := VInt 1024]> ∅)]> ∅)
    (Some (header_of_name "plain" 1)).

Definition store (exps : list ExperimentResult) : Result :=
  mkResult "QX single-node simulator" "2.0" "qobj-0" "job-0" true exps.

(** An experiment whose calibration entry is itself a list. *)
Definition exp_sweep : ExperimentResult :=
  mkExperimentResult 1024 true
    (<["probabilities" := bell]> (<["calibration" := VList [fridge; VNone]]> ∅))
    None.

(** An experiment that did not run: no data at all. *)
Definition exp_failed : ExperimentResult :=
  mkExperimentResult 0 false ∅ None.

(** A data accessor that refuses an experiment that did not run. *)
Definition checked_data_accessor (self : Result) (key : Key) : exn + gmap string Value :=
  match resolver self key with
  | inl e => inl e
  | inr exp =>
      if exp_success exp then inr (exp_data exp)
      else inl (QiskitError
                  ("No data for experiment " +:+ dquote +:+ str_of_key key
                   +:+ dquote))
  end.


(** A conversion that fails with [QiskitError] on a header without
    name. *)
Definition checked_to_dict (h : Header) : exn + gmap string Value :=
  match header_attrs h !! "name" with
  | Some _ => inr (header_attrs h)
  | None => inl (QiskitError "header has no name")
  end.

(** A conversion that fails with [AttributeError] on a header without
    name. *)
Definition named_to_dict (h : Header) : exn + gmap string Value :=
  match header_attrs h !! "name" with
  | Some _ => inr (header_attrs h)
  | None => inl (AttributeError "'Header' object has no attribute 'name'")
  end.

End Reference.

(** ** The accessors *)

Section Framework.

(** What [Result._get_experiment(key)] returns or raises on a store. *)
Variable resolver : Result -> Key -> exn + ExperimentResult.
(** What [Result.data(key)] returns or raises on a store. *)
Variable data_accessor : Result -> Key -> exn + gmap string Value.
(** [header.to_dict()]: the plain mapping, or the message of the
    [QiskitError] it fails with. *)
Variable to_dict : Header -> string + gmap string Value.
(** [postprocess.format_counts(counts, header)] *)
Variable format_counts : Value -> option (gmap string Value) -> Value.

Definition _get_experiment (key : Key) : M ExperimentResult :=
  call (fun self => resolver self key).

Definition data (key : Key) : M (gmap string Value) :=
  call (fun self => data_accessor self key).

(** [exp.header.to_dict()]: the attribute lookup fails on a record
    without header, the conversion fails as the framework says. *)
Definition header_to_dict (exp : ExperimentResult) : M (gmap string Value) :=
  match exp_header exp with
  | None =>
      raise (AttributeError "'ExperimentResult' object has no attribute 'header'")
  | Some h =>
      match to_dict h with
      | inl msg => raise (QiskitError msg)
      | inr d => ret d
      end
  end.

(** Lines 65-68 and 103-106. *)
Definition exp_keys (experiment : option Key) : M (list Key) :=
  match experiment with
  | None =>
      n <- attr (fun self => length (results self)) ;;
      ret (range n)
  | Some key => ret [key]
  end.

(** Lines 73-76. *)
Definition decode_header (exp : ExperimentResult) : M (option (gmap string Value)) :=
  try_except
    (d <- header_to_dict exp ;; ret (Some d))
    [AttributeErrorC; QiskitErrorC]
    (ret None).

(** Lines 72-82: the body of the loop of [get_probabilities]. *)
Definition probabilities_body (key : Key) (dict_list : list Value) : M (list Value) :=
  exp <- _get_experiment key ;;
  header <- decode_header exp ;;
  d <- data key ;;
  if bool_decide ("probabilities" ∈ dom d) then
    d' <- data key ;;
    probabilities <- getitem d' "probabilities" ;;
    ret (dict_list ++ [format_counts probabilities header])
  else
    raise (QiskitBackendError
             ("No probabilities for experiment " +:+ dquote
              +:+ str_of_key key +:+ dquote)).

(** Lines 84-88 and 118-122. *)
Definition first_if_single (dict_list : list Value) : M Value :=
  if bool_decide (length dict_list = 1) then
    match dict_list !! 0 with
    | Some d => ret d
    | None => raise (IndexError "list index out of range")
    end
  else ret (VList dict_list).

Definition get_probabilities (experiment : option Key) : M Value :=
  keys <- exp_keys experiment ;;
  dict_list <- for_each keys probabilities_body [] ;;
  first_if_single dict_list.

(** Lines 110-116: the body of the loop of [get_calibration]. *)
Definition calibration_body (key : Key) (dict_list : list Value) : M (list Value) :=
  exp <- _get_experiment key ;;
  d <- data key ;;
  if bool_decide ("calibration" ∈ dom d) then
    d' <- data key ;;
    calibration <- getitem d' "calibration" ;;
    ret (dict_list ++ [calibration])
  else
    raise (QiskitBackendError
             ("No calibration data for experiment " +:+ dquote
              +:+ str_of_key key +:+ dquote)).

Definition get_calibration (experiment : option Key) : M Value :=
  keys <- exp_keys experiment ;;
  dict_list <- for_each keys calibration_body [] ;;
  first_if_single dict_list.

(** ** What a call computes

    Both accessors are instances of one scheme; the definitions below
    name its parts, for the statements of the theorems. *)

Inductive accessor : Type :=
  | Probabilities
  | Calibration.

Definition get (a : accessor) : option Key -> M Value :=
  match a with
  | Probabilities => get_probabilities
  | Calibration => get_calibration
  end.

Definition body (a : accessor) : Key -> list Value -> M (list Value) :=
  match a with
  | Probabilities => probabilities_body
  | Calibration => calibration_body
  end.

(** The key of the data mapping an accessor reads. *)
Definition entry_key (a : accessor) : string :=
  match a with
  | Probabilities => "probabilities"
  | Calibration => "calibration"
  end.

(** The message of the missing-data error for [key]. *)
Definition missing_message (a : accessor) (key : Key) : string :=
  match a with
  | Probabilities => "No probabilities for experiment "
  | Calibration => "No calibration data for experiment "
  end +:+ dquote +:+ str_of_key key +:+ dquote.

(** The header of an experiment as a plain mapping, [None] when the
    record has no header or the conversion fails. *)
Definition header_of (exp : ExperimentResult) : option (gmap string Value) :=
  match exp_header exp with
  | Some h =>
      match to_dict h with
      | inr d => Some d
      | inl _ => None
      end
  | None => None
  end.

(** What an accessor makes of a stored entry. *)
Definition produced (a : accessor) (exp : ExperimentResult) (stored : Value) : Value :=
  match a with
  | Probabilities => format_counts stored (header_of exp)
  | Calibration => stored
  end.

(** One round of the loop, as a function of the store. *)
Definition step (a : accessor) (self : Result) (key : Key) : exn + Value :=
  match resolver self key with
  | inl e => inl e
  | inr exp =>
      match data_accessor self key with
      | inl e => inl e
      | inr d =>
          match d !! entry_key a with
          | Some stored => inr (produced a exp stored)
          | None => inl (QiskitBackendError (missing_message a key))
          end
      end
  end.

(** The rounds in sequence, up to the first that raises. *)
Fixpoint collect (f : Key -> exn + Value) (keys : list Key) : exn + list Value :=
  match keys with
  | [] => inr []
  | key :: keys' =>
      match f key with
      | inl e => inl e
      | inr v =>
          match collect f keys' with
          | inl e => inl e
          | inr vs => inr (v :: vs)
          end
      end
  end.

(** The keys a call walks through. *)
Definition keys_of (self : Result) (experiment : option Key) : list Key :=
  match experiment with
  | None => range (length (results self))
  | Some key => [key]
  end.

(** The value returned for a collected list. *)
Definition unwrap (dict_list : list Value) : Value :=
  match dict_list with
  | [d] => d
  | _ => VList dict_list
  end.

(** [v] is the entry the accessor [a] yields for [key]: the key
    resolves, its data mapping holds the entry, and [v] is what the
    accessor makes of the stored value. *)
Definition entry (a : accessor) (self : Result) (key : Key) (v : Value) : Prop :=
  exists exp d stored,
    resolver self key = inr exp /\
    data_accessor self key = inr d /\
    d !! entry_key a = Some stored /\
    v = produced a exp stored.

(** The resolver and the data accessor select by position on [self]:
    index [i] yields the i-th record of the store and its data
    mapping. *)
Definition positional (self : Result) : Prop :=
  forall (i : nat) (exp : ExperimentResult),
    results self !! i = Some exp ->
    resolver self (KInt (Z.of_nat i)) = inr exp /\
    data_accessor self (KInt (Z.of_nat i)) = inr (exp_data exp).

(** ** Header conversions that raise any exception

    The variable [to_dict] fails with [QiskitError] only.  Below, the
    conversion is a [convert] that may raise an exception of any class,
    and lines 65-88 are embedded over it once more. *)

(** [exp.header.to_dict()] *)
Definition header_to_dict_any (convert : Header -> exn + gmap string Value)
    (exp : ExperimentResult) : M (gmap string Value) :=
  match exp_header exp with
  | None =>
      raise (AttributeError "'ExperimentResult' object has no attribute 'header'")
  | Some h =>
      match convert h with
      | inl e => raise e
      | inr d => ret d
      end
  end.

(** Lines 73-76. *)
Definition decode_header_any (convert : Header -> exn + gmap string Value)
    (exp : ExperimentResult) : M (option (gmap string Value)) :=
  try_except
    (d <- header_to_dict_any convert exp ;; ret (Some d))
    [AttributeErrorC; QiskitErrorC]
    (ret None).

(** Lines 72-82. *)
Definition probabilities_body_any (convert : Header -> exn + gmap string Value)
    (key : Key) (dict_list : list Value) : M (list Value) :=
  exp <- _get_experiment key ;;
  header <- decode_header_any convert exp ;;
  d <- data key ;;
  if bool_decide ("probabilities" ∈ dom d) then
    d' <- data key ;;
    probabilities <- getitem d' "probabilities" ;;
    ret (dict_list ++ [format_counts probabilities header])
  else
    raise (QiskitBackendError
             ("No probabilities for experiment " +:+ dquote
              +:+ str_of_key key +:+ dquote)).

(** Lines 65-88. *)
Definition get_probabilities_any (convert : Header -> exn + gmap string Value)
    (experiment : option Key) : M Value :=
  keys <- exp_keys experiment ;;
  dict_list <- for_each keys (probabilities_body_any convert) [] ;;
  first_if_single dict_list.

(** The variable [to_dict] as such a conversion. *)
Definition to_dict_any (h : Header) : exn + gmap string Value :=
  match to_dict h with
  | inl msg => inl (QiskitError msg)
  | inr d => inr d
  end.

(** What the [try] block of lines 73-76 yields for an experiment: the
    header as a plain mapping, [None] when there is none or the
    conversion raised an error the clause catches, and the error when
    the clause does not catch it. *)
Definition header_of_any (convert : Header -> exn + gmap string Value)
    (exp : ExperimentResult) : exn + option (gmap string Value) :=
  match exp_header exp with
  | None => inr None
  | Some h =>
      match convert h with
      | inr d => inr (Some d)
      | inl e =>
          if caught_by [AttributeErrorC; QiskitErrorC] e then inr None
          else inl e
      end
  end.

(** One round of the loop over [convert], as a function of the store. *)
Definition step_any (convert : Header -> exn + gmap string Value)
    (self : Result) (key : Key) : exn + Value :=
  match resolver self key with
  | inl e => inl e
  | inr exp =>
      match header_of_any convert exp with
      | inl e => inl e
      | inr header =>
          match data_accessor self key with
          | inl e => inl e
          | inr d =>
              match d !! "probabilities" with
              | Some stored => inr (format_counts stored header)
              | None =>
                  inl (QiskitBackendError
                         ("No probabilities for experiment " +:+ dquote
                          +:+ str_of_key key +:+ dquote))
              end
          end
      end
  end.

(** ** The loop, round by round *)

Lemma decode_header_run (exp : ExperimentResult) (self : Result) :
  decode_header exp self = (inr (header_of exp), self).
Proof.
  unfold decode_header, try_except, bind, header_to_dict, header_of.
  destruct (exp_header exp) as [h|]; [|reflexivity].
  destruct (to_dict h) as [msg|d]; reflexivity.
Qed.

Lemma body_run (a : accessor) (key : Key) (acc : list Value) (self : Result) :
  body a key acc self =
    (match step a self key with
     | inl e => inl e
     | inr v => inr (acc ++ [v])
     end, self).
Proof.
  destruct a; simpl; unfold probabilities_body, calibration_body, step, bind,
    _get_experiment, data, call; simpl.
  - destruct (resolver self key) as [e|exp]; [reflexivity|].
    rewrite decode_header_run.
    destruct (data_accessor self key) as [e|d] eqn:Hdata; [reflexivity|].
    case_bool_decide as Hin.
    + apply elem_of_dom in Hin as [stored Hd].
      cbn. rewrite Hdata. unfold getitem. rewrite Hd. reflexivity.
    + apply not_elem_of_dom in Hin. rewrite Hin. reflexivity.
  - destruct (resolver self key) as [e|exp]; [reflexivity|].
    destruct (data_accessor self key) as [e|d] eqn:Hdata; [reflexivity|].
    case_bool_decide as Hin.
    + apply elem_of_dom in Hin as [stored Hd].
      cbn. rewrite Hdata. unfold getitem. rewrite Hd. reflexivity.
    + apply not_elem_of_dom in Hin. rewrite Hin. reflexivity.
Qed.

Lemma for_each_run (a : accessor) (keys : list Key) (acc : list Value) (self : Result) :
  for_each keys (body a) acc self =
    (match collect (step a self) keys with
     | inl e => inl e
     | inr vs => inr (acc ++ vs)
     end, self).
Proof.
  revert acc. induction keys as [|key keys IH]; intros acc; simpl.
  - unfold ret. by rewrite app_nil_r.
  - unfold bind. rewrite body_run.
    destruct (step a self key) as [e|v]; [reflexivity|].
    rewrite IH. destruct (collect (step a self) keys) as [e|vs]; [reflexivity|].
    by rewrite <- app_assoc.
Qed.

Lemma exp_keys_run (experiment : option Key) (self : Result) :
  exp_keys experiment self = (inr (keys_of self experiment), self).
Proof. destruct experiment; reflexivity. Qed.

Lemma first_if_single_run (dict_list : list Value) (self : Result) :
  first_if_single dict_list self = (inr (unwrap dict_list), self).
Proof.
  unfold first_if_single, unwrap.
  destruct dict_list as [|d [|d' l]]; reflexivity.
Qed.

(** A call, as a function of the store. *)
Lemma get_run (a : accessor) (experiment : option Key) (self : Result) :
  get a experiment self =
    (match collect (step a self) (keys_of self experiment) with
     | inl e => inl e
     | inr vs => inr (unwrap vs)
     end, self).
Proof.
  assert (get a experiment =
            (keys <- exp_keys experiment ;;
             dict_list <- for_each keys (body a) [] ;;
             first_if_single dict_list)) as -> by (destruct a; reflexivity).
  unfold bind. rewrite exp_keys_run, for_each_run.
  destruct (collect (step a self) (keys_of self experiment)) as [e|vs];
    [reflexivity|].
  simpl. apply first_if_single_run.
Qed.

Lemma step_entry (a : accessor) (self : Result) (key : Key) (v : Value) :
  step a self key = inr v <-> entry a self key v.
Proof.
  unfold step, entry. split.
  - destruct (resolver self key) as [e|exp]; [discriminate|].
    destruct (data_accessor self key) as [e|d]; [discriminate|].
    destruct (d !! entry_key a) as [stored|] eqn:Hd; [|discriminate].
    intros [= <-]. by exists exp, d, stored.
  - intros (exp & d & stored & -> & -> & -> & ->). reflexivity.
Qed.

Lemma collect_inr (f : Key -> exn + Value) (keys : list Key) (vs : list Value) :
  collect f keys = inr vs <-> Forall2 (fun key v => f key = inr v) keys vs.
Proof.
  revert vs. induction keys as [|key keys IH]; intros vs; simpl.
  - split.
    + intros [= <-]. constructor.
    + intros Hnil. by inversion Hnil.
  - split.
    + destruct (f key) as [e|v] eqn:Hf; [discriminate|].
      destruct (collect f keys) as [e|vs'] eqn:Hc; [discriminate|].
      intros [= <-]. constructor; [done|]. by apply IH.
    + intros Hcons. inversion Hcons as [|? v ? vs' Hf Hrest]; subst.
      rewrite Hf. apply IH in Hrest. by rewrite Hrest.
Qed.


(** A raised error is the error of some round. *)
Lemma collect_inl (f : Key -> exn + Value) (keys : list Key) (e : exn) :
  collect f keys = inl e -> exists key, key ∈ keys /\ f key = inl e.
Proof.
  induction keys as [|key keys IH]; simpl; [discriminate|].
  destruct (f key) as [e'|v] eqn:Hf.
  - intros [= <-]. exists key. split; [left|done].
  - destruct (collect f keys) as [e'|vs]; [|discriminate].
    intros [= <-]. destruct IH as (k & Hin & Hk); [done|].
    exists k. split; [by right|done].
Qed.

Lemma get_success (a : accessor) (experiment : option Key) (self : Result) (v : Value) :
  (get a experiment self).1 = inr v ->
  exists dict_list,
    Forall2 (entry a self) (keys_of self experiment) dict_list /\
    v = unwrap dict_list.
Proof.
  rewrite get_run. simpl.
  destruct (collect (step a self) (keys_of self experiment)) as [e|vs] eqn:Hc;
    [discriminate|].
  intros [= <-]. exists vs. split; [|reflexivity].
  apply collect_inr in Hc.
  eapply Forall2_impl; [exact Hc|]. intros key v. apply step_entry.
Qed.

Lemma get_failure (a : accessor) (experiment : option Key) (self : Result) (e : exn) :
  (get a experiment self).1 = inl e ->
  exists key, key ∈ keys_of self experiment /\ step a self key = inl e.
Proof.
  rewrite get_run. simpl.
  destruct (collect (step a self) (keys_of self experiment)) as [e'|vs] eqn:Hc;
    [|discriminate].
  intros [= <-]. by apply collect_inl.
Qed.

Lemma range_length (n : nat) : length (range n) = n.
Proof. unfold range. by rewrite length_fmap, length_seq. Qed.

(** ** The collapse rule *)

(** C1. When a call of either accessor succeeds, the mappings it
    collected are the entries of the keys it walked, in order.  If the
    call walked exactly one key (an explicit identifier, or no
    identifier on a store of exactly one record) the value returned is
    that single mapping itself; otherwise it is the list. *)
Theorem single_mapping_returned_directly (a : accessor) (experiment : option Key)
    (self : Result) (v : Value) :
  (get a experiment self).1 = inr v ->
  exists keys dict_list,
    exp_keys experiment self = (inr keys, self) /\
    (length keys = 1 <-> is_Some experiment \/ length (results self) = 1) /\
    Forall2 (entry a self) keys dict_list /\
    (length keys = 1 -> dict_list = [v]) /\
    (length keys <> 1 -> v = VList dict_list).
Proof.
  intros Hget. apply get_success in Hget as (dict_list & Hall & ->).
  exists (keys_of self experiment), dict_list.
  split; [apply exp_keys_run|].
  split.
  { destruct experiment as [key|]; simpl.
    - split; [intros _; left; by eexists | done].
    - rewrite range_length. split; [by right|].
      intros [[? [=]]|Hone]; done. }
  split; [done|].
  apply Forall2_length in Hall.
  split; intros Hlen; rewrite Hall in Hlen.
  - destruct dict_list as [|d [|d' l]]; simpl in Hlen; try lia. reflexivity.
  - destruct dict_list as [|d [|d' l]]; simpl in Hlen; try lia; reflexivity.
Qed.

(** ** Missing entries *)


(** ** All experiments, in store order *)

(** C3. Without an identifier, [get_probabilities] walks the indices
    [0 .. len(results) - 1] in order, and a successful call collected
    one formatted mapping per index, in that order; unless the store
    holds exactly one record the list itself is returned.  With a
    resolver and a data accessor that select by position, the i-th
    mapping is the formatted "probabilities" entry of the i-th
    record of the store. *)
Theorem probabilities_of_all_in_store_order (self : Result) (v : Value) :
  (get_probabilities None self).1 = inr v ->
  exp_keys None self =
    (inr ((fun i => KInt (Z.of_nat i)) <$> seq 0 (length (results self))), self) /\
  exists dict_list,
    length dict_list = length (results self) /\
    (forall (i : nat) (m : Value), dict_list !! i = Some m ->
       entry Probabilities self (KInt (Z.of_nat i)) m) /\
    v = unwrap dict_list /\
    (length (results self) <> 1 -> v = VList dict_list) /\
    ((forall (i : nat) (exp : ExperimentResult), results self !! i = Some exp ->
        resolver self (KInt (Z.of_nat i)) = inr exp /\
        data_accessor self (KInt (Z.of_nat i)) = inr (exp_data exp)) ->
     Forall2 (fun exp m => exists stored,
                exp_data exp !! "probabilities" = Some stored /\
                m = format_counts stored (header_of exp))
             (results self) dict_list).
Proof.
  intros Hget. split; [reflexivity|].
  apply (get_success Probabilities) in Hget as (dict_list & Hall & ->).
  simpl in Hall. unfold range in Hall. rewrite Forall2_fmap_l in Hall.
  pose proof (Forall2_length _ _ _ Hall) as Hlen. rewrite length_seq in Hlen.
  assert (forall (i : nat) (m : Value), dict_list !! i = Some m ->
            entry Probabilities self (KInt (Z.of_nat i)) m) as Hith.
  { intros i m Hm.
    assert (i < length (results self)) as Hi
      by (rewrite Hlen; by eapply lookup_lt_Some).
    eapply (Forall2_lookup_lr _ _ _ i i m) in Hall; [done| |done].
    by apply lookup_seq. }
  exists dict_list. split; [done|]. split; [done|]. split; [done|]. split.
  - intros Hne. rewrite Hlen in Hne.
    destruct dict_list as [|m [|m' l]]; simpl in Hne; try lia; reflexivity.
  - intros Hpos. apply Forall2_same_length_lookup_2; [done|].
    intros i exp m Hexp Hm.
    destruct (Hith i m Hm) as (exp' & d & stored & Hres & Hdata & Hd & ->).
    destruct (Hpos i exp Hexp) as [Hres' Hdata'].
    rewrite Hres' in Hres. rewrite Hdata' in Hdata.
    injection Hres as <-. injection Hdata as <-.
    by exists stored.
Qed.

(** ** What is collected for an experiment *)

(** C4. For a key that resolves and whose data mapping holds
    "calibration", the loop of [get_calibration] appends the stored
    value itself to its list, and a call for that key alone returns
    the stored value itself. *)
Theorem calibration_is_returned_unmodified (key : Key) (dict_list : list Value)
    (self : Result) (exp : ExperimentResult) (d : gmap string Value)
    (stored : Value) :
  resolver self key = inr exp ->
  data_accessor self key = inr d ->
  d !! "calibration" = Some stored ->
  calibration_body key dict_list self = (inr (dict_list ++ [stored]), self) /\
  get_calibration (Some key) self = (inr stored, self).
Proof.
  intros Hres Hdata Hd.
  assert (forall acc, calibration_body key acc self = (inr (acc ++ [stored]), self))
    as Hbody.
  { intros acc.
    unfold calibration_body, bind, _get_experiment, data, call.
    rewrite Hres, Hdata.
    rewrite bool_decide_eq_true_2 by (apply elem_of_dom; by eexists).
    rewrite Hdata. unfold getitem. by rewrite Hd. }
  split; [apply Hbody|].
  unfold get_calibration, bind, exp_keys, ret, for_each.
  fold (bind (calibration_body key []) ret self).
  unfold bind. by rewrite Hbody.
Qed.


(** ** Errors *)

(** C7. When the resolver raises for an explicit identifier, the loop
    of either accessor raises that very error, and so does the call:
    the error is the resolver's, whatever the data mappings hold. *)
Theorem unresolved_identifier_raises_resolver_error (a : accessor) (key : Key)
    (self : Result) (e : exn) :
  resolver self key = inl e ->
  (forall dict_list, body a key dict_list self = (inl e, self)) /\
  get a (Some key) self = (inl e, self).
Proof.
  intros Hres.
  assert (step a self key = inl e) as Hstep by (unfold step; by rewrite Hres).
  split.
  - intros dict_list. by rewrite body_run, Hstep.
  - rewrite get_run. simpl. by rewrite Hstep.
Qed.

(** ** Effects *)

(** C8. A call of either accessor leaves the [Result] object as it
    found it, whether it returns or raises. *)
Theorem accessors_leave_result_unchanged (a : accessor) (experiment : option Key)
    (self : Result) :
  (get a experiment self).2 = self.
Proof. by rewrite get_run. Qed.

(** C9. On a store without records, a call of either accessor without
    identifier returns the empty list. *)
Theorem empty_store_gives_empty_list (a : accessor) (self : Result) :
  results self = [] ->
  get a None self = (inr (VList []), self).
Proof. intros Hempty. rewrite get_run. simpl. by rewrite Hempty. Qed.

(** ** Further properties of a call *)



Lemma collect_ext (f g : Key -> exn + Value) (keys : list Key) :
  Forall (fun key => f key = g key) keys ->
  collect f keys = collect g keys.
Proof.
  induction 1 as [|key keys Hkey _ IH]; simpl; [done|].
  by rewrite Hkey, IH.
Qed.

Lemma exp_keys_inv (experiment : option Key) (self : Result) (keys : list Key) :
  exp_keys experiment self = (inr keys, self) -> keys_of self experiment = keys.
Proof. rewrite exp_keys_run. by intros [= ->]. Qed.

Lemma range_snoc (n : nat) : range (S n) = range n ++ [KInt (Z.of_nat n)].
Proof. unfold range. by rewrite seq_S, fmap_app. Qed.

Lemma range_lookup (n i : nat) :
  i < n -> range n !! i = Some (KInt (Z.of_nat i)).
Proof.
  intros Hi. unfold range. rewrite list_lookup_fmap.
  by rewrite lookup_seq_lt.
Qed.

Lemma collect_range_lookup (f : Key -> exn + Value) (n : nat) (vs : list Value) :
  collect f (range n) = inr vs <->
  length vs = n /\
  forall (i : nat) (v : Value), vs !! i = Some v -> f (KInt (Z.of_nat i)) = inr v.
Proof.
  rewrite collect_inr. split.
  - intros Hall. pose proof (Forall2_length _ _ _ Hall) as Hlen.
    rewrite range_length in Hlen. split; [done|].
    intros i v Hv.
    assert (i < n) as Hi by (rewrite Hlen; by eapply lookup_lt_Some).
    by apply (Forall2_lookup_lr _ _ _ i _ _ Hall (range_lookup n i Hi) Hv).
  - intros [Hlen Hith]. apply Forall2_same_length_lookup_2.
    + by rewrite range_length.
    + intros i key v Hkey Hv.
      assert (i < n) as Hi by (rewrite <- Hlen; by eapply lookup_lt_Some).
      rewrite range_lookup in Hkey by done. injection Hkey as <-.
      by apply Hith.
Qed.

Lemma get_single (a : accessor) (key : Key) (self : Result) :
  get a (Some key) self = (step a self key, self).
Proof.
  rewrite get_run. simpl. by destruct (step a self key).
Qed.

Lemma unwrap_list (l : list Value) : length l <> 1 -> unwrap l = VList l.
Proof. by destruct l as [|v [|v' l]]. Qed.




(** X4. On a store whose resolver and data accessor select by position,
    a successful call of [get_calibration] without identifier collected
    exactly the stored "calibration" values of the records, in store
    order; it returns that list unless the store holds exactly one
    record. *)
Theorem calibration_of_all_in_store_order (self : Result) (v : Value) :
  positional self ->
  (get Calibration None self).1 = inr v ->
  exists dict_list,
    Some <$> dict_list =
      (fun exp => exp_data exp !! "calibration") <$> results self /\
    v = unwrap dict_list /\
    (length (results self) <> 1 -> v = VList dict_list).
Proof.
  intros Hpos. rewrite get_run. simpl.
  destruct (collect (step Calibration self) (range (length (results self))))
    as [e|vs] eqn:Hc; [discriminate|].
  intros [= <-]. apply collect_range_lookup in Hc as [Hlen Hith].
  exists vs. split; [|split; [done|]].
  - apply list_eq. intros i. rewrite !list_lookup_fmap.
    destruct (vs !! i) as [m|] eqn:Hm.
    + assert (i < length (results self)) as Hi
        by (rewrite <- Hlen; by eapply lookup_lt_Some).
      destruct (lookup_lt_is_Some_2 _ _ Hi) as [exp Hexp].
      rewrite Hexp. simpl.
      specialize (Hith i m Hm). unfold step in Hith.
      destruct (Hpos i exp Hexp) as [Hres Hdata].
      rewrite Hres, Hdata in Hith. simpl in Hith.
      destruct (exp_data exp !! "calibration"); [|discriminate].
      by injection Hith as <-.
    + apply lookup_ge_None in Hm. rewrite Hlen in Hm.
      apply lookup_ge_None in Hm. by rewrite Hm.
  - intros Hne. apply unwrap_list. by rewrite Hlen.
Qed.

(** X5. On a store of exactly one record, a call without identifier is a
    call for index 0: same value or same error. *)
Theorem one_record_store_none_is_index_zero (a : accessor) (self : Result) :
  length (results self) = 1 ->
  get a None self = get a (Some (KInt 0)) self.
Proof. intros Hone. rewrite !get_run. simpl. by rewrite Hone. Qed.

(** X6. On a store that does not hold exactly one record, a call without
    identifier returns the list [l] exactly when [l] has one element per
    record and its i-th element is what the call for index [i]
    returns. *)
Theorem list_of_all_is_list_of_each (a : accessor) (self : Result)
    (l : list Value) :
  length (results self) <> 1 ->
  get a None self = (inr (VList l), self) <->
  length l = length (results self) /\
  forall (i : nat) (m : Value), l !! i = Some m ->
    get a (Some (KInt (Z.of_nat i))) self = (inr m, self).
Proof.
  intros Hne. rewrite get_run. simpl.
  assert ((length l = length (results self) /\
           forall (i : nat) (m : Value), l !! i = Some m ->
             get a (Some (KInt (Z.of_nat i))) self = (inr m, self)) <->
          collect (step a self) (range (length (results self))) = inr l) as ->.
  { rewrite collect_range_lookup. split; intros [Hlen Hith]; (split; [done|]).
    - intros i m Hm. specialize (Hith i m Hm). rewrite get_single in Hith.
      by injection Hith.
    - intros i m Hm. rewrite get_single. by rewrite (Hith i m Hm). }
  destruct (collect (step a self) (range (length (results self))))
    as [e|vs] eqn:Hc.
  - split; intros [=].
  - pose proof (proj1 (collect_range_lookup _ _ _) Hc) as [Hlen _].
    rewrite unwrap_list by (by rewrite Hlen).
    split; intros [= <-]; reflexivity.
Qed.

(** X7. The value returned does not tell a single entry that is a list
    from a list of entries: a call that walks one key whose entry is the
    list [l], and a call that walks keys whose entries are the elements
    of [l], both return [l], for every [l] that has not exactly one
    element. *)
Theorem single_list_entry_is_returned_like_list_of_entries (a : accessor)
    (experiment1 experiment2 : option Key) (self1 self2 : Result)
    (key : Key) (keys : list Key) (l : list Value) :
  exp_keys experiment1 self1 = (inr [key], self1) ->
  entry a self1 key (VList l) ->
  exp_keys experiment2 self2 = (inr keys, self2) ->
  Forall2 (entry a self2) keys l ->
  length l <> 1 ->
  (get a experiment1 self1).1 = inr (VList l) /\
  (get a experiment2 self2).1 = inr (VList l).
Proof.
  intros Hkeys1 Hentry Hkeys2 Hall Hne.
  apply exp_keys_inv in Hkeys1. apply exp_keys_inv in Hkeys2.
  rewrite !get_run, Hkeys1, Hkeys2. simpl.
  apply step_entry in Hentry. rewrite Hentry.
  assert (collect (step a self2) keys = inr l) as ->.
  { apply collect_inr. eapply Forall2_impl; [exact Hall|].
    intros k v. apply step_entry. }
  split; [reflexivity|]. by rewrite unwrap_list.
Qed.


(** ** Header conversions that raise any exception: what a call computes *)

Lemma for_each_collect (body : Key -> list Value -> M (list Value))
    (f : Key -> exn + Value) (self : Result) :
  (forall key acc,
     body key acc self =
       (match f key with
        | inl e => inl e
        | inr v => inr (acc ++ [v])
        end, self)) ->
  forall keys acc,
    for_each keys body acc self =
      (match collect f keys with
       | inl e => inl e
       | inr vs => inr (acc ++ vs)
       end, self).
Proof.
  intros Hbody keys. induction keys as [|key keys IH]; intros acc; simpl.
  - unfold ret. by rewrite app_nil_r.
  - unfold bind. rewrite Hbody.
    destruct (f key) as [e|v]; [reflexivity|].
    rewrite IH. destruct (collect f keys) as [e|vs]; [reflexivity|].
    by rewrite <- app_assoc.
Qed.

Lemma decode_header_any_run (convert : Header -> exn + gmap string Value)
    (exp : ExperimentResult) (self : Result) :
  decode_header_any convert exp self = (header_of_any convert exp, self).
Proof.
  unfold decode_header_any, try_except, bind, header_to_dict_any, header_of_any.
  destruct (exp_header exp) as [h|]; [|reflexivity].
  destruct (convert h) as [e|d]; [|reflexivity].
  simpl. by destruct (isinstance e AttributeErrorC), (isinstance e QiskitErrorC).
Qed.

Lemma body_any_run (convert : Header -> exn + gmap string Value) (key : Key)
    (acc : list Value) (self : Result) :
  probabilities_body_any convert key acc self =
    (match step_any convert self key with
     | inl e => inl e
     | inr v => inr (acc ++ [v])
     end, self).
Proof.
  unfold probabilities_body_any, step_any, bind, _get_experiment, data, call.
  destruct (resolver self key) as [e|exp]; [reflexivity|].
  rewrite decode_header_any_run.
  destruct (header_of_any convert exp) as [e|header]; [reflexivity|].
  destruct (data_accessor self key) as [e|d] eqn:Hdata; [reflexivity|].
  case_bool_decide as Hin.
  - apply elem_of_dom in Hin as [stored Hd].
    cbn. rewrite Hdata. unfold getitem. rewrite Hd. reflexivity.
  - apply not_elem_of_dom in Hin. rewrite Hin. reflexivity.
Qed.

Lemma get_any_run (convert : Header -> exn + gmap string Value)
    (experiment : option Key) (self : Result) :
  get_probabilities_any convert experiment self =
    (match collect (step_any convert self) (keys_of self experiment) with
     | inl e => inl e
     | inr vs => inr (unwrap vs)
     end, self).
Proof.
  unfold get_probabilities_any, bind. rewrite exp_keys_run.
  rewrite (for_each_collect _ (step_any convert self))
    by (intros key acc; apply body_any_run).
  destruct (collect (step_any convert self) (keys_of self experiment))
    as [e|vs]; [reflexivity|].
  simpl. apply first_if_single_run.
Qed.

(** With the variable [to_dict] as conversion, the embedding over
    [convert] is [get_probabilities]. *)
Lemma get_probabilities_any_to_dict (experiment : option Key) (self : Result) :
  get_probabilities_any to_dict_any experiment self
  = get_probabilities experiment self.
Proof.
  rewrite get_any_run, (get_run Probabilities).
  rewrite (collect_ext _ (step Probabilities self)); [reflexivity|].
  apply Forall_forall. intros key _. unfold step_any, step.
  destruct (resolver self key) as [e|exp]; [reflexivity|].
  assert (header_of_any to_dict_any exp = inr (header_of exp)) as ->.
  { unfold header_of_any, header_of, to_dict_any.
    destruct (exp_header exp) as [h|]; [|reflexivity].
    by destruct (to_dict h). }
  destruct (data_accessor self key) as [e|d]; [reflexivity|].
  simpl. by destruct (d !! "probabilities").
Qed.


(** X9. Which caught error a header conversion raises is of no
    consequence: with two conversions that, on every header, either
    behave alike or both raise an error that is an instance of
    [AttributeError] or of [QiskitError], [get_probabilities] has the
    same outcome. *)
Theorem caught_header_failures_are_interchangeable
    (convert convert' : Header -> exn + gmap string Value)
    (experiment : option Key) (self : Result) :
  (forall h : Header,
     convert h = convert' h \/
     exists e e',
       convert h = inl e /\ convert' h = inl e' /\
       caught_by [AttributeErrorC; QiskitErrorC] e = true /\
       caught_by [AttributeErrorC; QiskitErrorC] e' = true) ->
  get_probabilities_any convert experiment self
  = get_probabilities_any convert' experiment self.
Proof.
  intros Hsame. rewrite !get_any_run.
  rewrite (collect_ext _ (step_any convert' self)); [reflexivity|].
  apply Forall_forall. intros key _. unfold step_any.
  destruct (resolver self key) as [e|exp]; [reflexivity|].
  assert (header_of_any convert exp = header_of_any convert' exp) as ->;
    [|reflexivity].
  unfold header_of_any. destruct (exp_header exp) as [h|]; [|reflexivity].
  destruct (Hsame h) as [->|(e & e' & -> & -> & -> & ->)]; reflexivity.
Qed.

End Framework.

(** C10. The outcome of a call is determined by its argument and by what
    the SDK answers for the keys it walks.  Two calls of an accessor
    with the same argument, on states and with SDK answers that may
    differ otherwise, return the same value or raise the same error as
    soon as they walk the same keys, the resolver and the data accessor
    answer alike for these keys, and the header conversion and the
    formatting helper answer alike.  Two calls on the same state with
    the same SDK are the case where nothing differs. *)
Theorem same_sdk_answers_give_same_outcome
    (resolver resolver' : Result -> Key -> exn + ExperimentResult)
    (data_accessor data_accessor' : Result -> Key -> exn + gmap string Value)
    (to_dict to_dict' : Header -> string + gmap string Value)
    (format_counts format_counts' : Value -> option (gmap string Value) -> Value)
    (a : accessor) (experiment : option Key) (self self' : Result)
    (keys : list Key) :
  exp_keys experiment self = (inr keys, self) ->
  exp_keys experiment self' = (inr keys, self') ->
  Forall (fun key => resolver self key = resolver' self' key /\
                     data_accessor self key = data_accessor' self' key) keys ->
  (forall h, to_dict h = to_dict' h) ->
  (forall counts header, format_counts counts header = format_counts' counts header) ->
  (get resolver data_accessor to_dict format_counts a experiment self).1
  = (get resolver' data_accessor' to_dict' format_counts' a experiment self').1.
Proof.
  intros Hkeys Hkeys' Hsdk Hconv Hformat.
  apply exp_keys_inv in Hkeys. apply exp_keys_inv in Hkeys'.
  rewrite !get_run, Hkeys, Hkeys'. simpl.
  rewrite (collect_ext _ (step resolver' data_accessor' to_dict' format_counts'
                            a self')); [reflexivity|].
  eapply Forall_impl; [exact Hsdk|]. intros key [Hres Hdata]. unfold step.
  rewrite Hres, Hdata.
  destruct (resolver' self' key) as [e|exp]; [reflexivity|].
  destruct (data_accessor' self' key) as [e|d]; [reflexivity|].
  destruct (d !! entry_key a) as [stored|]; [|reflexivity].
  f_equal. destruct a; simpl; [|reflexivity].
  rewrite Hformat. f_equal. unfold header_of.
  destruct (exp_header exp) as [h|]; [|reflexivity]. by rewrite Hconv.
Qed.

(** ** Runs on concrete stores

    The theorems above, applied to the reference instance of the SDK on
    stores of one, two and three experiments. *)

(** A store of one experiment with [{"00": 0.5, "11": 0.5}]: the mapping
    comes back as it is, not in a list. *)
Lemma single_mapping_returned_directly_witness :
  (get Reference.resolver Reference.data_accessor Reference.to_dict
     Reference.format_counts Probabilities None (Reference.store [Reference.exp_bell])).1
    = inr Reference.bell /\
  exists keys dict_list,
    exp_keys None (Reference.store [Reference.exp_bell])
      = (inr keys, Reference.store [Reference.exp_bell]) /\
    (length keys = 1 <->
       is_Some (@None Key) \/
       length (results (Reference.store [Reference.exp_bell])) = 1) /\
    Forall2 (entry Reference.resolver Reference.data_accessor
               Reference.to_dict Reference.format_counts Probabilities (Reference.store [Reference.exp_bell]))
      keys dict_list /\
    (length keys = 1 -> dict_list = [Reference.bell]) /\
    (length keys <> 1 -> Reference.bell = VList dict_list).
Proof.
  split; [vm_compute; reflexivity|].
  apply (single_mapping_returned_directly
           Reference.resolver Reference.data_accessor Reference.to_dict
           Reference.format_counts Probabilities None
           (Reference.store [Reference.exp_bell]) Reference.bell).
  vm_compute. reflexivity.
Defined.


(** Two experiments with probabilities: a list of two mappings, the
    first of the first record and the second of the second. *)
Lemma probabilities_of_all_in_store_order_witness :
  exists dict_list,
    VList [Reference.bell; Reference.coin2] = VList dict_list /\
    Forall2 (fun exp m => exists stored,
               exp_data exp !! "probabilities" = Some stored /\
               m = Reference.format_counts stored
                     (header_of Reference.to_dict exp))
            [Reference.exp_bell; Reference.exp_coin] dict_list.
Proof.
  destruct (probabilities_of_all_in_store_order
              Reference.resolver Reference.data_accessor Reference.to_dict
              Reference.format_counts
              (Reference.store [Reference.exp_bell; Reference.exp_coin])
              (VList [Reference.bell; Reference.coin2]))
    as (_ & dict_list & _ & _ & _ & Hlist & Hstore).
  - vm_compute. reflexivity.
  - exists dict_list. split.
    + apply Hlist. simpl. lia.
    + apply Hstore. intros [|[|i]] exp Hexp; simpl in Hexp.
      * injection Hexp as <-. split; reflexivity.
      * injection Hexp as <-. split; reflexivity.
      * discriminate.
Defined.

(** The calibration entry of the first experiment comes back as stored. *)
Lemma calibration_is_returned_unmodified_witness :
  calibration_body Reference.resolver Reference.data_accessor (KInt 0) []
    (Reference.store [Reference.exp_bell])
    = (inr ([] ++ [Reference.fridge]), Reference.store [Reference.exp_bell]) /\
  get_calibration Reference.resolver Reference.data_accessor (Some (KInt 0))
    (Reference.store [Reference.exp_bell])
    = (inr Reference.fridge, Reference.store [Reference.exp_bell]).
Proof.
  apply (calibration_is_returned_unmodified
           Reference.resolver Reference.data_accessor (KInt 0) []
           (Reference.store [Reference.exp_bell])
           Reference.exp_bell (exp_data Reference.exp_bell) Reference.fridge).
  - reflexivity.
  - reflexivity.
  - vm_compute. reflexivity.
Defined.


(** No experiment is named [zz]: the resolver's error comes out. *)
Lemma unresolved_identifier_raises_resolver_error_witness :
  get Reference.resolver Reference.data_accessor Reference.to_dict
    Reference.format_counts Calibration (Some (KStr "zz")) (Reference.store [Reference.exp_bell])
  = (inl (QiskitError
            ("Data for experiment " +:+ dquote +:+ "zz" +:+ dquote
             +:+ " could not be found.")),
     Reference.store [Reference.exp_bell]).
Proof.
  apply (unresolved_identifier_raises_resolver_error
           Reference.resolver Reference.data_accessor Reference.to_dict
           Reference.format_counts Calibration (KStr "zz")
           (Reference.store [Reference.exp_bell])).
  reflexivity.
Defined.

(** A store without experiments. *)
Lemma empty_store_gives_empty_list_witness :
  get Reference.resolver Reference.data_accessor Reference.to_dict
    Reference.format_counts Probabilities None (Reference.store [])
  = (inr (VList []), Reference.store []).
Proof.
  apply (empty_store_gives_empty_list
           Reference.resolver Reference.data_accessor Reference.to_dict
           Reference.format_counts Probabilities (Reference.store [])).
  reflexivity.
Defined.

(** The reference resolver and data accessor select by position. *)
Lemma reference_positional (self : Result) :
  positional Reference.resolver Reference.data_accessor self.
Proof.
  intros i exp Hexp.
  assert (Reference.resolver self (KInt (Z.of_nat i)) = inr exp) as Hres.
  { unfold Reference.resolver, Reference.py_index.
    rewrite bool_decide_eq_true_2 by lia.
    by rewrite Nat2Z.id, Hexp. }
  split; [done|]. unfold Reference.data_accessor. by rewrite Hres.
Qed.



(** Two experiments: their calibration values, in store order. *)
Lemma calibration_of_all_in_store_order_witness :
  exists dict_list,
    Some <$> dict_list =
      (fun exp => exp_data exp !! "calibration")
        <$> results (Reference.store [Reference.exp_bell; Reference.exp_coin]) /\
    VList [Reference.fridge; VNone] = unwrap dict_list /\
    (length (results (Reference.store [Reference.exp_bell; Reference.exp_coin]))
       <> 1 ->
     VList [Reference.fridge; VNone] = VList dict_list).
Proof.
  apply (calibration_of_all_in_store_order
           Reference.resolver Reference.data_accessor Reference.to_dict
           Reference.format_counts
           (Reference.store [Reference.exp_bell; Reference.exp_coin])
           (VList [Reference.fridge; VNone])).
  - apply reference_positional.
  - vm_compute. reflexivity.
Defined.

(** One experiment: no identifier or index 0, the same call. *)
Lemma one_record_store_none_is_index_zero_witness :
  get Reference.resolver Reference.data_accessor Reference.to_dict
    Reference.format_counts Probabilities None
    (Reference.store [Reference.exp_bell])
  = get Reference.resolver Reference.data_accessor Reference.to_dict
      Reference.format_counts Probabilities (Some (KInt 0))
      (Reference.store [Reference.exp_bell]).
Proof.
  apply (one_record_store_none_is_index_zero
           Reference.resolver Reference.data_accessor Reference.to_dict
           Reference.format_counts Probabilities
           (Reference.store [Reference.exp_bell])).
  reflexivity.
Defined.

(** Two experiments: the list of all is made of the calls for index 0
    and index 1. *)
Lemma list_of_all_is_list_of_each_witness :
  get Reference.resolver Reference.data_accessor Reference.to_dict
    Reference.format_counts Probabilities None
    (Reference.store [Reference.exp_bell; Reference.exp_coin])
  = (inr (VList [Reference.bell; Reference.coin2]),
     Reference.store [Reference.exp_bell; Reference.exp_coin]) <->
  length [Reference.bell; Reference.coin2]
  = length (results (Reference.store [Reference.exp_bell; Reference.exp_coin])) /\
  forall (i : nat) (m : Value),
    [Reference.bell; Reference.coin2] !! i = Some m ->
    get Reference.resolver Reference.data_accessor Reference.to_dict
      Reference.format_counts Probabilities (Some (KInt (Z.of_nat i)))
      (Reference.store [Reference.exp_bell; Reference.exp_coin])
    = (inr m, Reference.store [Reference.exp_bell; Reference.exp_coin]).
Proof.
  apply (list_of_all_is_list_of_each
           Reference.resolver Reference.data_accessor Reference.to_dict
           Reference.format_counts Probabilities
           (Reference.store [Reference.exp_bell; Reference.exp_coin])
           [Reference.bell; Reference.coin2]).
  simpl. lia.
Defined.

(** One experiment whose calibration is a list of two values, and two
    experiments with these two values: the same value returned. *)
Lemma single_list_entry_is_returned_like_list_of_entries_witness :
  (get Reference.resolver Reference.data_accessor Reference.to_dict
     Reference.format_counts Calibration None
     (Reference.store [Reference.exp_sweep])).1
  = inr (VList [Reference.fridge; VNone]) /\
  (get Reference.resolver Reference.data_accessor Reference.to_dict
     Reference.format_counts Calibration None
     (Reference.store [Reference.exp_bell; Reference.exp_coin])).1
  = inr (VList [Reference.fridge; VNone]).
Proof.
  apply (single_list_entry_is_returned_like_list_of_entries
           Reference.resolver Reference.data_accessor Reference.to_dict
           Reference.format_counts Calibration None None
           (Reference.store [Reference.exp_sweep])
           (Reference.store [Reference.exp_bell; Reference.exp_coin])
           (KInt 0) [KInt 0; KInt 1] [Reference.fridge; VNone]).
  - reflexivity.
  - exists Reference.exp_sweep, (exp_data Reference.exp_sweep),
      (VList [Reference.fridge; VNone]).
    vm_compute. repeat split; reflexivity.
  - reflexivity.
  - constructor; [|constructor; [|constructor]].
    + exists Reference.exp_bell, (exp_data Reference.exp_bell), Reference.fridge.
      vm_compute. repeat split; reflexivity.
    + exists Reference.exp_coin, (exp_data Reference.exp_coin), VNone.
      vm_compute. repeat split; reflexivity.
  - simpl. lia.
Defined.




(** Two conversions that reject a nameless header, one with
    [QiskitError] and one with [AttributeError]: the same probabilities
    come back. *)
Lemma caught_header_failures_are_interchangeable_witness :
  get_probabilities_any Reference.resolver Reference.data_accessor
    Reference.format_counts Reference.checked_to_dict None
    (Reference.store [Reference.exp_anonymous; Reference.exp_coin])
  = get_probabilities_any Reference.resolver Reference.data_accessor
      Reference.format_counts Reference.named_to_dict None
      (Reference.store [Reference.exp_anonymous; Reference.exp_coin]).
Proof.
  apply (caught_header_failures_are_interchangeable
           Reference.resolver Reference.data_accessor Reference.format_counts
           Reference.checked_to_dict Reference.named_to_dict None
           (Reference.store [Reference.exp_anonymous; Reference.exp_coin])).
  intros h. unfold Reference.checked_to_dict, Reference.named_to_dict.
  destruct (header_attrs h !! "name") as [name|]; [by left|].
  right. eexists _, _. repeat split; reflexivity.
Defined.

(** Two stores that differ in their second record, and two data
    accessors that differ on it: the calls for index 0 have the same
    outcome. *)
Lemma same_sdk_answers_give_same_outcome_witness :
  (get Reference.resolver Reference.data_accessor Reference.to_dict
     Reference.format_counts Calibration (Some (KInt 0))
     (Reference.store [Reference.exp_bell; Reference.exp_counts])).1
  = (get Reference.resolver Reference.checked_data_accessor Reference.to_dict
       Reference.format_counts Calibration (Some (KInt 0))
       (Reference.store [Reference.exp_bell; Reference.exp_failed])).1.
Proof.
  apply (same_sdk_answers_give_same_outcome
           Reference.resolver Reference.resolver
           Reference.data_accessor Reference.checked_data_accessor
           Reference.to_dict Reference.to_dict
           Reference.format_counts Reference.format_counts
           Calibration (Some (KInt 0))
           (Reference.store [Reference.exp_bell; Reference.exp_counts])
           (Reference.store [Reference.exp_bell; Reference.exp_failed])
           [KInt 0]).
  - reflexivity.
  - reflexivity.
  - constructor; [|constructor]. split; reflexivity.
  - reflexivity.
  - reflexivity.
Defined.
